(** * attiny-controller: the BCD codec and the power-cycle sequence of main.go

    A shallow embedding of [src/main.go].  The pure helpers ([toBCD],
    [fromBCD]) are functions on [Z] with Go's fixed-width arithmetic
    written out.  [runMain] is embedded in a state-and-error monad over
    a [World] holding the wall clock, the package-level variables, the
    cached camera state and the trace of externally visible events. *)

From Stdlib Require Import ZArith List String Bool Lia.
Import ListNotations.

Local Open Scope string_scope.
Local Open Scope list_scope.
Local Open Scope Z_scope.

(** ** Bus transport: binary-coded decimal *)

(** A Go [byte] is an unsigned 8-bit integer: a [Z] in [0, 256). *)
Definition is_byte (b : Z) : Prop := 0 <= b < 256.

(** The conversion [byte(n)] of an [int]: the low eight bits. *)
Definition byte_of_int (n : Z) : Z := n mod 256.

(** Arithmetic on [byte] wraps modulo 256. *)
Definition byte_add (a b : Z) : Z := (a + b) mod 256.
Definition byte_shl (a k : Z) : Z := Z.shiftl a k mod 256.

(** [func fromBCD(b byte) int { return int(b&0x0F) + int(b>>4)*10 }] *)
Definition fromBCD (b : Z) : Z :=
  Z.land b 15 + Z.shiftr b 4 * 10.

(** [func toBCD(n int) byte { return byte(n)/10<<4 + byte(n)%10 }]
    In Go [/], [<<] and [%] share one precedence level and associate
    to the left, so the expression reads
    [((byte(n)/10) << 4) + (byte(n) % 10)], all at type [byte]. *)
Definition toBCD (n : Z) : Z :=
  byte_add (byte_shl (byte_of_int n / 10) 4) (byte_of_int n mod 10).

(** The two decimal digits held by a byte. *)
Definition lo_nibble (b : Z) : Z := Z.land b 15.
Definition hi_nibble (b : Z) : Z := Z.shiftr b 4.

(** A valid BCD encoding has both nibbles at most 9. *)
Definition valid_bcd (b : Z) : Prop :=
  is_byte b /\ lo_nibble b <= 9 /\ hi_nibble b <= 9.

(** ** Time

    An instant is a number of nanoseconds since the Unix epoch; a
    [time.Duration] is a signed 64-bit count of nanoseconds. *)

Definition Time := Z.
Definition Duration := Z.

Definition Second : Duration := 1000000000.
Definition Minute : Duration := 60 * Second.
Definition Hour : Duration := 60 * Minute.

Definition minDuration : Duration := - 2 ^ 63.
Definition maxDuration : Duration := 2 ^ 63 - 1.

(** [t.Sub(u)]: the difference, clamped to what a [Duration] holds. *)
Definition time_Sub (t u : Time) : Duration :=
  Z.max minDuration (Z.min maxDuration (t - u)).

(** [time.Time{}], the zero instant: January 1 of year 1, 00:00 UTC. *)
Definition time_zero : Time := -62135596800 * Second.

(** ** Package-level constants and variables (main.go, lines 35-49) *)

Definition initialGracePeriod : Duration := 20 * Minute.
Definition batteryReadingInterval : Duration := 10 * Minute.
Definition saltCommandWaitDuration : Duration := 30 * Minute.

Definition version : string := "<not set>".

(** The two deadlines guarded by [mu].  The model is sequential, so the
    mutex itself carries no state. *)
Record Globals := mkGlobals {
  stayOnUntil : Time;
  saltCommandWaitEnd : Time
}.

(** The initialisers of the [var] block, run once at process start:
    [stayOnUntil = time.Now()] and [saltCommandWaitEnd = time.Time{}]. *)
Definition init_globals (now : Time) : Globals :=
  {| stayOnUntil := now; saltCommandWaitEnd := time_zero |}.

Inductive DeadlineKind := StayOn | MaintenancePause.

(** Modelled from the spec: the [Extend] operation of the shared
    deadline state (its handler is not in main.go).  It sets the named
    field to [max(current, newDeadline)]. *)
Definition Extend (k : DeadlineKind) (t : Time) (g : Globals) : Globals :=
  match k with
  | StayOn =>
      {| stayOnUntil := Z.max (stayOnUntil g) t;
         saltCommandWaitEnd := saltCommandWaitEnd g |}
  | MaintenancePause =>
      {| stayOnUntil := stayOnUntil g;
         saltCommandWaitEnd := Z.max (saltCommandWaitEnd g) t |}
  end.

(** An extension request issued by an external actor at instant
    [arrival]. *)
Record ExtendReq := mkExtendReq {
  arrival : Time;
  kind : DeadlineKind;
  deadline : Time
}.

(** ** Command line (lines 51-56) *)

Record Args := mkArgs {
  ConfigDir : string;
  SkipWait : bool;
  Timestamps : bool;
  SkipSystemShutdown : bool
}.

(** ** Errors, log lines and events *)

(** A Go [error] is identified with its message. *)
Definition error := string.

Inductive Result (A : Type) :=
| Ok (a : A)
| Err (e : error).
Arguments Ok {A} a.
Arguments Err {A} e.

(** The decoded status register of the power MCU. *)
Definition CameraState := Z.

(** Modelled from the spec: the alarm fields derived from a wake
    timestamp (the type is declared outside main.go). *)
Record AlarmTime := mkAlarmTime {
  alarmMinute : Z;
  alarmHour : Z
}.

(** One constructor per [log] call of main.go. *)
Inductive LogLine :=
| LRunningVersion (v : string)       (* line 86 *)
| LConnectingATtiny                  (* line 93 *)
| LSettingUpWDT                      (* line 99 *)
| LConnectingRTC                     (* line 107 *)
| LRTCTime (t : Time)                (* line 130 *)
| LAlarmTime (t : Time)              (* line 133 *)
| LCameraState (s : CameraState)     (* lines 144, 160, 164, 169 *)
| LNotWaiting                        (* line 147 *)
| LWaiting20                         (* line 149 *)
| LSleepingFor (d : Duration)        (* line 156 *)
| LFinishedWaiting                   (* line 158 *)
| LFatal (e : error).                (* line 73 *)

(** What the main sequence does to the outside world, in order.  A call
    to a collaborator is recorded with the outcome it returned. *)
Inductive Event :=
| ELog (l : LogLine)
| ELogSetFlags (flags : Z)
| EParseConfig (dir : string) (r : option error)
| EConnect (retries : Z) (r : option error)
| ESpawnWatchdog
| EInitRTC (r : option error)
| EReadCameraState (r : Result CameraState)
| EClearAlarmFlag (r : option error)
| EGetTime (r : Result Time)
| ESetAlarmTime (a : AlarmTime) (r : option error)
| ESetAlarmEnabled (b : bool) (r : option error)
| ESleep (d : Duration)
| EPoweringOff (r : option error)
| EPoweroff (output : string) (r : option error)
| EExit (code : Z).

(** ** The environment

    The collaborators of main.go live in other files and on the bus;
    the outcome of each of their operations is a parameter.  The
    schedule answers as a function of the instant it is asked at, and
    the [n]-th status read of the run has its own outcome. *)
Record Env := mkEnv {
  ParseConfig_res : string -> option error;
  OnWindow_Active : Time -> bool;
  OnWindow_NextStart : Time -> Time;
  OnWindow_NextEnd : Time -> Time;
  connect_res : Z -> option error;
  InitPCF9564_res : option error;
  ReadCameraState_res : nat -> Result CameraState;
  ClearAlarmFlag_res : option error;
  GetTime_res : Result Time;
  AlarmTimeFromTime : Time -> AlarmTime;
  SetAlarmTime_res : AlarmTime -> option error;
  SetAlarmEnabled_res : bool -> option error;
  PoweringOff_res : option error;
  poweroff_res : string * option error
}.

(** ** The world threaded through the main sequence

    Calls take no time: the clock moves in [time.Sleep] only. *)

Record World := mkWorld {
  clock : Time;                       (* what time.Now() returns *)
  globals : Globals;                  (* stayOnUntil, saltCommandWaitEnd *)
  pending : list ExtendReq;           (* extensions still to arrive *)
  attiny_CameraState : CameraState;   (* the cached attiny.CameraState *)
  cameraReads : nat;                  (* status reads made so far *)
  trace : list Event
}.

Definition init_World (now : Time) (reqs : list ExtendReq) : World :=
  {| clock := now; globals := init_globals now; pending := reqs;
     attiny_CameraState := 0; cameraReads := 0; trace := [] |}.

Definition add_event (ev : Event) (w : World) : World :=
  {| clock := clock w; globals := globals w; pending := pending w;
     attiny_CameraState := attiny_CameraState w;
     cameraReads := cameraReads w; trace := trace w ++ [ev] |}.

Definition advance (d : Duration) (w : World) : World :=
  {| clock := clock w + d; globals := globals w; pending := pending w;
     attiny_CameraState := attiny_CameraState w;
     cameraReads := cameraReads w; trace := trace w |}.

Definition cache_state (s : CameraState) (w : World) : World :=
  {| clock := clock w; globals := globals w; pending := pending w;
     attiny_CameraState := s;
     cameraReads := cameraReads w; trace := trace w |}.

Definition count_read (w : World) : World :=
  {| clock := clock w; globals := globals w; pending := pending w;
     attiny_CameraState := attiny_CameraState w;
     cameraReads := S (cameraReads w); trace := trace w |}.

(** Every request that has arrived by [now] is applied, in order. *)
Fixpoint deliver (now : Time) (reqs : list ExtendReq) (g : Globals)
  : Globals * list ExtendReq :=
  match reqs with
  | [] => (g, [])
  | r :: reqs' =>
      if arrival r <=? now
      then deliver now reqs' (Extend (kind r) (deadline r) g)
      else let (g', rest) := deliver now reqs' g in (g', r :: rest)
  end.

Definition arrive (w : World) : World :=
  {| clock := clock w;
     globals := fst (deliver (clock w) (pending w) (globals w));
     pending := snd (deliver (clock w) (pending w) (globals w));
     attiny_CameraState := attiny_CameraState w;
     cameraReads := cameraReads w; trace := trace w |}.

(** The same world with another deadline state and other requests
    under way. *)
Definition with_deadlines (g : Globals) (reqs : list ExtendReq) (w : World)
  : World :=
  {| clock := clock w; globals := g; pending := reqs;
     attiny_CameraState := attiny_CameraState w;
     cameraReads := cameraReads w; trace := trace w |}.

(** ** The monad: state plus the [error] a function returns early with *)

Definition M (A : Type) : Type := World -> Result A * World.

Definition ret {A : Type} (a : A) : M A := fun w => (Ok a, w).

Definition bind {A B : Type} (m : M A) (k : A -> M B) : M B :=
  fun w =>
    match m w with
    | (Ok a, w1) => k a w1
    | (Err e, w1) => (Err e, w1)
    end.

(** [return err] *)
Definition raise {A : Type} (e : error) : M A := fun w => (Err e, w).

Declare Scope go_scope.
Delimit Scope go_scope with go.
Notation "x <- m ;; k" := (bind m (fun x => k))
  (at level 61, m at next level, right associativity) : go_scope.
Notation "m ;; k" := (bind m (fun _ => k))
  (at level 61, right associativity) : go_scope.
Local Open Scope go_scope.

Definition emit (ev : Event) : M unit := fun w => (Ok tt, add_event ev w).

Definition log (l : LogLine) : M unit := emit (ELog l).

(** [if err := f(); err != nil { return err }] *)
Definition check (m : M (option error)) : M unit :=
  r <- m ;;
  match r with
  | Some e => raise e
  | None => ret tt
  end.

(** A call used as a statement: whatever it returns is dropped. *)
Definition discard {A : Type} (m : M A) : M unit :=
  _ <- m ;; ret tt.

Definition newline : string := String (Ascii.ascii_of_nat 10) EmptyString.

Section Program.

Variable env : Env.

(** *** Collaborators *)

Definition time_Now : M Time := fun w => (Ok (clock w), w).

(** [time.Until(t)] is [t.Sub(time.Now())]. *)
Definition time_Until (t : Time) : M Duration :=
  now <- time_Now ;; ret (time_Sub t now).

(** [time.Sleep(d)] returns at once when [d <= 0]; otherwise the clock
    moves on by [d], and the extension requests that arrived meanwhile
    have been applied to the shared deadlines. *)
Definition time_Sleep (d : Duration) : M unit :=
  emit (ESleep d) ;;
  if d <=? 0 then ret tt
  else fun w => (Ok tt, arrive (advance d w)).

Definition ParseConfig (dir : string) : M (option error) :=
  let r := ParseConfig_res env dir in
  emit (EParseConfig dir r) ;; ret r.

Definition Active : M bool :=
  now <- time_Now ;; ret (OnWindow_Active env now).

Definition NextStart : M Time :=
  now <- time_Now ;; ret (OnWindow_NextStart env now).

Definition NextEnd : M Time :=
  now <- time_Now ;; ret (OnWindow_NextEnd env now).

Definition connectToATtinyWithRetries (retries : Z) : M (option error) :=
  let r := connect_res env retries in
  emit (EConnect retries r) ;; ret r.

Definition InitPCF9564 : M (option error) :=
  let r := InitPCF9564_res env in
  emit (EInitRTC r) ;; ret r.

(** Modelled from the spec: [ReadCameraState] of the power-MCU client
    (defined outside main.go) reads the status register and, when the
    read succeeds, overwrites the cached [CameraState] field; a failed
    read is returned as an error and leaves the cache as it was. *)
Definition ReadCameraState : M (option error) :=
  fun w =>
    let r := ReadCameraState_res env (cameraReads w) in
    let w1 := add_event (EReadCameraState r) (count_read w) in
    match r with
    | Ok s => (Ok None, cache_state s w1)
    | Err e => (Ok (Some e), w1)
    end.

Definition ClearAlarmFlag : M (option error) :=
  let r := ClearAlarmFlag_res env in
  emit (EClearAlarmFlag r) ;; ret r.

Definition GetTime : M (Result Time) :=
  let r := GetTime_res env in
  emit (EGetTime r) ;; ret r.

Definition SetAlarmTime (a : AlarmTime) : M (option error) :=
  let r := SetAlarmTime_res env a in
  emit (ESetAlarmTime a r) ;; ret r.

Definition SetAlarmEnabled (b : bool) : M (option error) :=
  let r := SetAlarmEnabled_res env b in
  emit (ESetAlarmEnabled b r) ;; ret r.

Definition PoweringOff : M (option error) :=
  let r := PoweringOff_res env in
  emit (EPoweringOff r) ;; ret r.

(** [exec.Command("/sbin/poweroff").CombinedOutput()] *)
Definition poweroff_CombinedOutput : M (string * option error) :=
  let r := poweroff_res env in
  emit (EPoweroff (fst r) (snd r)) ;; ret r.

(** [log.Println(attiny.CameraState)] *)
Definition log_CameraState : M unit :=
  fun w => log (LCameraState (attiny_CameraState w)) w.

(** *** shutdown (lines 209-216) *)

Definition shutdown : M (option error) :=
  r <- poweroff_CombinedOutput ;;
  match snd r with
  | Some err =>
      ret (Some (String.append "poweroff failed: "
                   (String.append err (String.append newline (fst r)))))
  | None => ret None
  end.

(** *** runMain (lines 79-172)

    The body is cut at the three comments-and-blank-line boundaries
    that separate connecting, the grace period, the wait for the window
    and the power-off steps; [runMain] is their sequence. *)

(** Lines 80-144.  [args] is what [procArgs()] returned; the watchdog
    goroutine is recorded by the event that starts it. *)
Definition runMain_connecting (args : Args) : M unit :=
  (if negb (Timestamps args) then emit (ELogSetFlags 0) else ret tt) ;;
  log (LRunningVersion version) ;;
  check (ParseConfig (ConfigDir args)) ;;
  log LConnectingATtiny ;;
  check (connectToATtinyWithRetries 0) ;;
  log LSettingUpWDT ;;
  emit ESpawnWatchdog ;;
  log LConnectingRTC ;;
  check InitPCF9564 ;;
  check ReadCameraState ;;
  check ClearAlarmFlag ;;
  r <- GetTime ;;
  match r with
  | Err err => raise err
  | Ok t =>
      log (LRTCTime t) ;;
      alarmTime <- NextStart ;;
      log (LAlarmTime alarmTime) ;;
      check (SetAlarmTime (AlarmTimeFromTime env alarmTime)) ;;
      check (SetAlarmEnabled true) ;;
      discard ReadCameraState ;;
      log_CameraState
  end.

(** Lines 146-151. *)
Definition runMain_gracePeriod (args : Args) : M unit :=
  if SkipWait args then log LNotWaiting
  else log LWaiting20 ;; time_Sleep (20 * Minute).

(** Lines 153-161.  [||] evaluates its right operand only when the
    left one is false. *)
Definition runMain_awaitWindow : M unit :=
  active <- Active ;;
  cond <- (if active then ret true
           else start <- NextStart ;;
                until_start <- time_Until start ;;
                ret (until_start <? Minute * 2)) ;;
  if cond then
    end_ <- NextEnd ;;
    delayDuration <- time_Until end_ ;;
    log (LSleepingFor delayDuration) ;;
    time_Sleep delayDuration ;;
    log LFinishedWaiting ;;
    discard ReadCameraState ;;
    log_CameraState
  else ret tt.

(** Lines 163-171. *)
Definition runMain_shutdown : M unit :=
  discard ReadCameraState ;;
  log_CameraState ;;
  check PoweringOff ;;
  discard ReadCameraState ;;
  log_CameraState ;;
  discard shutdown ;;
  ret tt.

Definition runMain (args : Args) : M unit :=
  runMain_connecting args ;;
  runMain_gracePeriod args ;;
  runMain_awaitWindow ;;
  runMain_shutdown.

(** *** main (lines 70-77)

    [log.Fatal] writes the error and exits with status 1; falling off
    the end of [main] exits with status 0. *)
Definition main (args : Args) (w : World) : World :=
  match runMain args w with
  | (Err err, w1) => add_event (EExit 1) (add_event (ELog (LFatal err)) w1)
  | (Ok _, w1) => add_event (EExit 0) w1
  end.

End Program.

(** ** Reading a trace *)

Definition is_sleep (ev : Event) : bool :=
  match ev with ESleep _ => true | _ => false end.

Definition is_poweroff (ev : Event) : bool :=
  match ev with EPoweroff _ _ => true | _ => false end.

Definition is_read (ev : Event) : bool :=
  match ev with EReadCameraState _ => true | _ => false end.

Definition no_sleep (evs : list Event) : Prop :=
  forallb (fun ev => negb (is_sleep ev)) evs = true.

Definition sleeps (evs : list Event) : list Event := filter is_sleep evs.

Definition log_lines (evs : list Event) : list LogLine :=
  flat_map (fun ev => match ev with ELog l => [l] | _ => [] end) evs.

Definition exit_code (evs : list Event) : option Z :=
  match last evs ESpawnWatchdog with
  | EExit c => Some c
  | _ => None
  end.

(** The only log line of main.go that prints an error value. *)
Definition records_failure (e : error) (l : LogLine) : bool :=
  match l with
  | LFatal e' => String.eqb e e'
  | _ => false
  end.

(** The error of a failed call whose result runMain tests with
    [if err != nil { return err }] wherever it makes it. *)
Definition checked_failure (ev : Event) : option error :=
  match ev with
  | EParseConfig _ (Some e) => Some e
  | EConnect _ (Some e) => Some e
  | EInitRTC (Some e) => Some e
  | EClearAlarmFlag (Some e) => Some e
  | EGetTime (Err e) => Some e
  | ESetAlarmTime _ (Some e) => Some e
  | ESetAlarmEnabled _ (Some e) => Some e
  | EPoweringOff (Some e) => Some e
  | _ => None
  end.

Definition poweroff_failure (ev : Event) : bool :=
  match ev with EPoweroff _ (Some _) => true | _ => false end.

Definition res_error {A : Type} (r : Result A) : option error :=
  match r with Ok _ => None | Err e => Some e end.

(** The error of the first failed call of a trace among those runMain
    tests: the calls of [checked_failure], and the status read when it
    is the first of the run ([seen_read] tells whether one came before). *)
Fixpoint abort_error (seen_read : bool) (evs : list Event) : option error :=
  match evs with
  | [] => None
  | EReadCameraState r :: evs' =>
      match seen_read, r with
      | false, Err e => Some e
      | _, _ => abort_error true evs'
      end
  | ev :: evs' =>
      match checked_failure ev with
      | Some e => Some e
      | None => abort_error seen_read evs'
      end
  end.

(** The condition of line 154 at instant [now]: the window is open, or
    its next start is under two minutes away. *)
Definition window_due (env : Env) (now : Time) : bool :=
  OnWindow_Active env now
  || (time_Sub (OnWindow_NextStart env now) now <? Minute * 2).

(** What of a world the main sequence can see: everything but the
    shared deadlines and the requests under way. *)
Definition same_view (w1 w2 : World) : Prop :=
  clock w1 = clock w2 /\
  attiny_CameraState w1 = attiny_CameraState w2 /\
  cameraReads w1 = cameraReads w2 /\
  trace w1 = trace w2.

(** A computation that never consults the shared deadlines. *)
Definition deadline_blind {A : Type} (m : M A) : Prop :=
  forall w1 w2, same_view w1 w2 ->
    fst (m w1) = fst (m w2) /\ same_view (snd (m w1)) (snd (m w2)).

(** A computation whose new events account for its result: it returns
    the error of the first failed call that runMain tests, and none of
    its log lines prints an error. *)
Definition audited (m : M unit) : Prop :=
  forall w, exists evs,
    trace (snd (m w)) = trace w ++ evs /\
    res_error (fst (m w)) = abort_error true evs /\
    (forall e, existsb (records_failure e) (log_lines evs) = false).

(** The wait target the specification asks for in AwaitWindow:
    [max(window.NextEnd(), stayOnUntil, maintenancePauseUntil)]. *)
Definition spec_wait_target (env : Env) (w : World) : Time :=
  Z.max (OnWindow_NextEnd env (clock w))
        (Z.max (stayOnUntil (globals w)) (saltCommandWaitEnd (globals w))).

(** ** Concrete environments *)

(** 2023-11-14 22:13:20 UTC. *)
Definition t_boot : Time := 1700000000 * Second.

(** A window open on [[s, e)], repeating a day later. *)
Definition window_Active (s e : Time) (now : Time) : bool :=
  (s <=? now) && (now <? e).
Definition window_NextStart (s : Time) (now : Time) : Time :=
  if now <? s then s else s + 24 * Hour.
Definition window_NextEnd (e : Time) (now : Time) : Time :=
  if now <? e then e else e + 24 * Hour.

Definition utc_alarm (t : Time) : AlarmTime :=
  {| alarmMinute := (t / Minute) mod 60; alarmHour := (t / Hour) mod 24 |}.

(** Every collaborator succeeds; the window is [[s, e)]. *)
Definition env_ok (s e : Time) : Env :=
  {| ParseConfig_res := fun _ => None;
     OnWindow_Active := window_Active s e;
     OnWindow_NextStart := window_NextStart s;
     OnWindow_NextEnd := window_NextEnd e;
     connect_res := fun _ => None;
     InitPCF9564_res := None;
     ReadCameraState_res := fun _ => Ok 1;
     ClearAlarmFlag_res := None;
     GetTime_res := Ok t_boot;
     AlarmTimeFromTime := utc_alarm;
     SetAlarmTime_res := fun _ => None;
     SetAlarmEnabled_res := fun _ => None;
     PoweringOff_res := None;
     poweroff_res := (EmptyString, None) |}.

Definition with_poweroff (r : string * option error) (env : Env) : Env :=
  {| ParseConfig_res := ParseConfig_res env;
     OnWindow_Active := OnWindow_Active env;
     OnWindow_NextStart := OnWindow_NextStart env;
     OnWindow_NextEnd := OnWindow_NextEnd env;
     connect_res := connect_res env;
     InitPCF9564_res := InitPCF9564_res env;
     ReadCameraState_res := ReadCameraState_res env;
     ClearAlarmFlag_res := ClearAlarmFlag_res env;
     GetTime_res := GetTime_res env;
     AlarmTimeFromTime := AlarmTimeFromTime env;
     SetAlarmTime_res := SetAlarmTime_res env;
     SetAlarmEnabled_res := SetAlarmEnabled_res env;
     PoweringOff_res := PoweringOff_res env;
     poweroff_res := r |}.

Definition with_reads (f : nat -> Result CameraState) (env : Env) : Env :=
  {| ParseConfig_res := ParseConfig_res env;
     OnWindow_Active := OnWindow_Active env;
     OnWindow_NextStart := OnWindow_NextStart env;
     OnWindow_NextEnd := OnWindow_NextEnd env;
     connect_res := connect_res env;
     InitPCF9564_res := InitPCF9564_res env;
     ReadCameraState_res := f;
     ClearAlarmFlag_res := ClearAlarmFlag_res env;
     GetTime_res := GetTime_res env;
     AlarmTimeFromTime := AlarmTimeFromTime env;
     SetAlarmTime_res := SetAlarmTime_res env;
     SetAlarmEnabled_res := SetAlarmEnabled_res env;
     PoweringOff_res := PoweringOff_res env;
     poweroff_res := poweroff_res env |}.

(** The window opens in six hours: nothing to wait for. *)
Definition env_idle : Env := env_ok (t_boot + 6 * Hour) (t_boot + 14 * Hour).

(** The window opened an hour ago and closes in two. *)
Definition env_open : Env := env_ok (t_boot - Hour) (t_boot + 2 * Hour).

(** /sbin/poweroff exits with a failure and a diagnostic. *)
Definition env_poweroff_fails : Env :=
  with_poweroff ("poweroff: must be superuser", Some "exit status 1") env_idle.

(** The second status read of the run, the one made once the alarm is
    enabled, fails on the bus. *)
Definition env_read_fails : Env :=
  with_reads (fun n => match n with 1%nat => Err "i2c: read failed" | _ => Ok 1 end)
             env_idle.

(** The RTC refuses to clear its alarm flag. *)
Definition env_clear_fails : Env :=
  {| ParseConfig_res := ParseConfig_res env_idle;
     OnWindow_Active := OnWindow_Active env_idle;
     OnWindow_NextStart := OnWindow_NextStart env_idle;
     OnWindow_NextEnd := OnWindow_NextEnd env_idle;
     connect_res := connect_res env_idle;
     InitPCF9564_res := InitPCF9564_res env_idle;
     ReadCameraState_res := ReadCameraState_res env_idle;
     ClearAlarmFlag_res := Some "rtc: no ack";
     GetTime_res := GetTime_res env_idle;
     AlarmTimeFromTime := AlarmTimeFromTime env_idle;
     SetAlarmTime_res := SetAlarmTime_res env_idle;
     SetAlarmEnabled_res := SetAlarmEnabled_res env_idle;
     PoweringOff_res := PoweringOff_res env_idle;
     poweroff_res := poweroff_res env_idle |}.

Definition args_default : Args :=
  {| ConfigDir := "/etc/cacophony"; SkipWait := false;
     Timestamps := false; SkipSystemShutdown := false |}.

Definition args_skip_wait : Args :=
  {| ConfigDir := "/etc/cacophony"; SkipWait := true;
     Timestamps := false; SkipSystemShutdown := false |}.

Definition args_skip_shutdown : Args :=
  {| ConfigDir := "/etc/cacophony"; SkipWait := true;
     Timestamps := false; SkipSystemShutdown := true |}.

(** [Extend(StayOn, t_boot + 3h)] arrives one hour into the run. *)
Definition late_extension : ExtendReq :=
  {| arrival := t_boot + Hour; kind := StayOn; deadline := t_boot + 3 * Hour |}.

(** ** Further readings of a trace *)

Definition is_powering_off (ev : Event) : bool :=
  match ev with EPoweringOff _ => true | _ => false end.

(** The two power-off actions: the command to the power MCU and the
    host's /sbin/poweroff. *)
Definition is_power (ev : Event) : bool :=
  is_powering_off ev || is_poweroff ev.

Definition is_spawn (ev : Event) : bool :=
  match ev with ESpawnWatchdog => true | _ => false end.

(** [connectToATtinyWithRetries(0)] returned without error. *)
Definition is_connected (ev : Event) : bool :=
  match ev with EConnect r None => r =? 0 | _ => false end.

(** What runMain does once it holds the power-MCU client: RTC and
    status traffic, waits, and the power-off actions. *)
Definition after_connect (ev : Event) : bool :=
  match ev with
  | EInitRTC _ | EReadCameraState _ | EClearAlarmFlag _ | EGetTime _
  | ESetAlarmTime _ _ | ESetAlarmEnabled _ _ | ESleep _
  | EPoweringOff _ | EPoweroff _ _ => true
  | _ => false
  end.

(** Every event satisfying [q] has an event satisfying [m] before it
    ([seen] tells whether one came before the list). *)
Fixpoint guarded_by (m q : Event -> bool) (seen : bool) (evs : list Event)
  : bool :=
  match evs with
  | [] => true
  | ev :: evs' =>
      (negb (q ev) || seen) && guarded_by m q (seen || m ev) evs'
  end.

Definition last_event (evs : list Event) : Event := last evs ESpawnWatchdog.

(** The length of the grace period of lines 146-151. *)
Definition grace_of (args : Args) : Duration :=
  if SkipWait args then 0 else 20 * Minute.

(** The [delayDuration] of line 155 at instant [now]. *)
Definition window_delay (env : Env) (now : Time) : Duration :=
  time_Sub (OnWindow_NextEnd env now) now.

(** * Properties *)

(** ** The codec *)

Example toBCD_59 : toBCD 59 = 89 (* 0x59 *).
Proof. reflexivity. Qed.

Example fromBCD_0x59 : fromBCD 89 = 59.
Proof. reflexivity. Qed.

Example fromBCD_0xFF : fromBCD 255 = 165.
Proof. reflexivity. Qed.

(** *** Arithmetic reading of the bit operations *)

Lemma lo_nibble_mod (b : Z) : lo_nibble b = b mod 16.
Proof. unfold lo_nibble. change 15 with (Z.ones 4). now rewrite Z.land_ones. Qed.

Lemma hi_nibble_div (b : Z) : hi_nibble b = b / 16.
Proof. unfold hi_nibble. now rewrite Z.shiftr_div_pow2. Qed.

Lemma fromBCD_arith (b : Z) : fromBCD b = b mod 16 + b / 16 * 10.
Proof.
  unfold fromBCD. fold (lo_nibble b) (hi_nibble b).
  now rewrite lo_nibble_mod, hi_nibble_div.
Qed.

Lemma toBCD_arith (n : Z) :
  toBCD n = ((n mod 256 / 10 * 16) mod 256 + n mod 256 mod 10) mod 256.
Proof.
  unfold toBCD, byte_add, byte_shl, byte_of_int.
  now rewrite Z.shiftl_mul_pow2.
Qed.

Lemma toBCD_small (n : Z) :
  0 <= n <= 99 -> toBCD n = n / 10 * 16 + n mod 10.
Proof.
  intros Hn. rewrite toBCD_arith.
  rewrite (Z.mod_small n 256) by lia.
  assert (0 <= n / 10 < 10).
  { split; [apply Z.div_pos; lia | apply Z.div_lt_upper_bound; lia]. }
  assert (0 <= n mod 10 < 10) by (apply Z.mod_pos_bound; lia).
  rewrite (Z.mod_small (n / 10 * 16)) by lia.
  apply Z.mod_small. lia.
Qed.

Lemma digits_split (d0 d1 : Z) :
  0 <= d0 < 16 -> (d1 * 16 + d0) mod 16 = d0 /\ (d1 * 16 + d0) / 16 = d1.
Proof.
  intros H. split.
  - rewrite Z.add_comm, Z.mod_add by lia. now apply Z.mod_small.
  - rewrite Z.add_comm, Z.div_add by lia. rewrite Z.div_small by lia. lia.
Qed.

(** *** Claims about the codec *)

(** C6. BCD round-trip: for every integer [n] in [0, 99],
    [fromBCD (toBCD n) = n]. *)
Theorem fromBCD_toBCD (n : Z) :
  0 <= n <= 99 -> fromBCD (toBCD n) = n.
Proof.
  intros Hn. rewrite toBCD_small by exact Hn. rewrite fromBCD_arith.
  assert (Hd : 0 <= n mod 10 < 10) by (apply Z.mod_pos_bound; lia).
  destruct (digits_split (n mod 10) (n / 10)) as [-> ->]; [lia|].
  pose proof (Z.div_mod n 10). lia.
Qed.

Lemma fromBCD_toBCD_witness : 0 <= 59 <= 99 /\ fromBCD (toBCD 59) = 59.
Proof. split; [lia | apply (fromBCD_toBCD 59); lia]. Defined.

(** C8 as stated fails: the byte 0xFF decodes to 165. *)
Lemma fromBCD_exceeds_99 :
  is_byte 255 /\ ~ (0 <= fromBCD 255 <= 99).
Proof. split; [unfold is_byte; lia | vm_compute; intros [_ H]; now apply H]. Qed.

(** C8, amended. For every byte [b], [fromBCD b] lies in [0, 165]; it
    lies in [0, 99] whenever both nibbles of [b] are at most 9. *)
Theorem fromBCD_range (b : Z) :
  is_byte b ->
  0 <= fromBCD b <= 165 /\
  (lo_nibble b <= 9 -> hi_nibble b <= 9 -> 0 <= fromBCD b <= 99).
Proof.
  unfold is_byte. intros Hb. rewrite lo_nibble_mod, hi_nibble_div, fromBCD_arith.
  assert (0 <= b mod 16 < 16) by (apply Z.mod_pos_bound; lia).
  assert (0 <= b / 16 < 16).
  { split; [apply Z.div_pos; lia | apply Z.div_lt_upper_bound; lia]. }
  lia.
Qed.

Lemma fromBCD_range_witness :
  is_byte 89 /\ 0 <= fromBCD 89 <= 165 /\
  (lo_nibble 89 <= 9 -> hi_nibble 89 <= 9 -> 0 <= fromBCD 89 <= 99).
Proof. split; [unfold is_byte; lia | apply (fromBCD_range 89); unfold is_byte; lia]. Defined.

(** C10. Reverse round-trip: for every byte [b] whose low and high
    nibbles are each at most 9, [toBCD (fromBCD b) = b]. *)
Theorem toBCD_fromBCD (b : Z) :
  valid_bcd b -> toBCD (fromBCD b) = b.
Proof.
  unfold valid_bcd, is_byte. rewrite lo_nibble_mod, hi_nibble_div.
  intros (Hb & Hlo & Hhi).
  assert (H0 : 0 <= b mod 16 < 16) by (apply Z.mod_pos_bound; lia).
  assert (H1 : 0 <= b / 16) by (apply Z.div_pos; lia).
  rewrite fromBCD_arith, toBCD_small by lia.
  replace ((b mod 16 + b / 16 * 10) / 10) with (b / 16).
  2:{ rewrite Z.div_add by lia. rewrite (Z.div_small (b mod 16) 10) by lia. lia. }
  replace ((b mod 16 + b / 16 * 10) mod 10) with (b mod 16).
  2:{ rewrite Z.mod_add by lia. rewrite (Z.mod_small (b mod 16) 10) by lia. lia. }
  pose proof (Z.div_mod b 16). lia.
Qed.

Lemma toBCD_fromBCD_witness : valid_bcd 89 /\ toBCD (fromBCD 89) = 89.
Proof.
  assert (H : valid_bcd 89).
  { unfold valid_bcd, is_byte. repeat split; try lia; apply Z.leb_le; reflexivity. }
  split; [exact H | apply (toBCD_fromBCD 89); exact H].
Defined.

(** Splitting a conjunction into its parts, and nothing else. *)
Ltac conj_split := repeat match goal with |- _ /\ _ => split end.

(** ** The shared deadlines at process start *)

(** C7 as stated fails: at boot the maintenance-pause deadline is not
    the current time. *)
Lemma maintenance_deadline_not_now :
  stayOnUntil (globals (init_World t_boot [])) = t_boot /\
  saltCommandWaitEnd (globals (init_World t_boot [])) <> t_boot.
Proof. split; [reflexivity | intro H; discriminate H]. Qed.

(** C7, amended. At process start the stay-on deadline is initialised
    to the current time and the maintenance-pause deadline to the zero
    instant [time.Time{}]; the latter equals the current time only if
    the clock itself reads the zero instant. *)
Theorem deadlines_at_start (now : Time) (reqs : list ExtendReq) :
  stayOnUntil (globals (init_World now reqs)) = now /\
  saltCommandWaitEnd (globals (init_World now reqs)) = time_zero /\
  (saltCommandWaitEnd (globals (init_World now reqs)) = now <-> now = time_zero).
Proof. simpl. repeat split; intros; congruence. Qed.

(** ** Runs on the concrete environments *)

Example run_idle_exits_0 :
  exit_code (trace (main env_idle args_skip_wait (init_World t_boot []))) = Some 0.
Proof. vm_compute. reflexivity. Qed.

Example run_idle_sleeps_only_for_grace :
  sleeps (trace (main env_idle args_default (init_World t_boot [])))
  = [ESleep (20 * Minute)].
Proof. vm_compute. reflexivity. Qed.

Example run_open_waits_for_window_end :
  sleeps (trace (main env_open args_skip_wait (init_World t_boot [])))
  = [ESleep (2 * Hour)].
Proof. vm_compute. reflexivity. Qed.

Example run_clear_fails_is_fatal :
  trace (main env_clear_fails args_skip_wait (init_World t_boot []))
  = [ELogSetFlags 0; ELog (LRunningVersion version);
     EParseConfig "/etc/cacophony" None; ELog LConnectingATtiny;
     EConnect 0 None; ELog LSettingUpWDT; ESpawnWatchdog;
     ELog LConnectingRTC; EInitRTC None; EReadCameraState (Ok 1);
     EClearAlarmFlag (Some "rtc: no ack");
     ELog (LFatal "rtc: no ack"); EExit 1].
Proof. vm_compute. reflexivity. Qed.

(** The flag is never read: two command lines that differ in it alone
    run identically. *)
Lemma runMain_SkipSystemShutdown_irrelevant
  (env : Env) (dir : string) (skipWait ts b b' : bool) (w : World) :
  runMain env (mkArgs dir skipWait ts b) w = runMain env (mkArgs dir skipWait ts b') w.
Proof. reflexivity. Qed.

(** C3 (the code departs from the claim). With [--skip-system-shutdown]
    set and every collaborator succeeding, the run still invokes
    /sbin/poweroff, exactly once, after [PoweringOff] succeeded. *)
Theorem skip_system_shutdown_not_honoured :
  SkipSystemShutdown args_skip_shutdown = true /\
  fst (runMain env_idle args_skip_shutdown (init_World t_boot [])) = Ok tt /\
  filter (fun ev => is_poweroff ev || match ev with EPoweringOff _ => true | _ => false end)
         (trace (snd (runMain env_idle args_skip_shutdown (init_World t_boot []))))
  = [EPoweringOff None; EPoweroff "" None].
Proof. conj_split; vm_compute; reflexivity. Qed.

(** C4 (the code departs from the claim). When /sbin/poweroff fails,
    [shutdown] builds the error carrying the captured output, but
    [runMain] drops it: it returns [nil], nothing is logged, and the
    process exits with status 0. *)
Theorem poweroff_failure_not_reported :
  fst (shutdown env_poweroff_fails (init_World t_boot []))
  = Ok (Some (String.append "poweroff failed: exit status 1"
                (String.append newline "poweroff: must be superuser"))) /\
  fst (runMain env_poweroff_fails args_skip_wait (init_World t_boot [])) = Ok tt /\
  In (EPoweroff "poweroff: must be superuser" (Some "exit status 1"))
     (trace (main env_poweroff_fails args_skip_wait (init_World t_boot []))) /\
  filter (fun l => match l with LFatal _ => true | _ => false end)
         (log_lines (trace (main env_poweroff_fails args_skip_wait (init_World t_boot []))))
  = [] /\
  exit_code (trace (main env_poweroff_fails args_skip_wait (init_World t_boot [])))
  = Some 0.
Proof. conj_split; try (vm_compute; reflexivity). vm_compute. tauto. Qed.

(** C1 as stated fails. The window is open and ends at [t_boot + 2h];
    [Extend(StayOn, t_boot + 3h)] arrives one hour into the wait and is
    applied to the shared deadline, yet the run sleeps once, wakes at
    the window end and goes on to power off, an hour short of the
    target the claim describes. *)
Lemma late_extension_ignored :
  OnWindow_Active env_open t_boot = true /\
  OnWindow_NextEnd env_open t_boot = t_boot + 2 * Hour /\
  t_boot < arrival late_extension < t_boot + 2 * Hour /\
  deadline late_extension > t_boot + 2 * Hour /\
  fst (runMain env_open args_skip_wait (init_World t_boot [late_extension])) = Ok tt /\
  stayOnUntil (globals (snd (runMain env_open args_skip_wait
                               (init_World t_boot [late_extension]))))
  = deadline late_extension /\
  sleeps (trace (snd (runMain env_open args_skip_wait
                        (init_World t_boot [late_extension]))))
  = [ESleep (2 * Hour)] /\
  clock (snd (runMain env_open args_skip_wait (init_World t_boot [late_extension])))
  = t_boot + 2 * Hour /\
  clock (snd (runMain env_open args_skip_wait (init_World t_boot [late_extension])))
  < spec_wait_target env_open
      (snd (runMain env_open args_skip_wait (init_World t_boot [late_extension]))) /\
  In (EPoweringOff None)
     (trace (snd (runMain env_open args_skip_wait (init_World t_boot [late_extension])))).
Proof. conj_split; try (vm_compute; reflexivity). vm_compute. tauto. Qed.

(** C9 as stated fails. The status read made right after the alarm is
    enabled fails on the bus; [runMain] neither returns the error nor
    logs it: the run succeeds, and its log is line for line the log of
    the run in which every read succeeded. *)
Lemma diagnostic_read_failure_swallowed :
  In (EReadCameraState (Err "i2c: read failed"))
     (trace (main env_read_fails args_skip_wait (init_World t_boot []))) /\
  fst (runMain env_read_fails args_skip_wait (init_World t_boot [])) = Ok tt /\
  existsb (records_failure "i2c: read failed")
          (log_lines (trace (main env_read_fails args_skip_wait (init_World t_boot []))))
  = false /\
  log_lines (trace (main env_read_fails args_skip_wait (init_World t_boot [])))
  = log_lines (trace (main env_idle args_skip_wait (init_World t_boot []))) /\
  exit_code (trace (main env_read_fails args_skip_wait (init_World t_boot [])))
  = Some 0.
Proof. conj_split; try (vm_compute; reflexivity). vm_compute. tauto. Qed.

(** ** Stepping through the main sequence *)

Ltac unfold_run :=
  unfold runMain_connecting, runMain_gracePeriod, runMain_awaitWindow,
    runMain_shutdown, shutdown, check, discard, log_CameraState, log,
    ParseConfig, connectToATtinyWithRetries, InitPCF9564, ReadCameraState,
    ClearAlarmFlag, GetTime, SetAlarmTime, SetAlarmEnabled, PoweringOff,
    poweroff_CombinedOutput, Active, NextStart, NextEnd, time_Until,
    time_Now, time_Sleep, emit, bind, ret, raise.

(** Case analysis on the next outcome the environment is asked for. *)
Ltac case_env :=
  match goal with
  | |- context [match ?x with _ => _ end] =>
      lazymatch x with
      | context [match _ with _ => _ end] => fail
      | _ => destruct x eqn:?
      end
  end.

Ltac run_simpl := cbn -[time_Sub Z.ltb Z.leb Z.mul Z.add Minute Hour Second].

Ltac run_cases := unfold_run; run_simpl; repeat (case_env; run_simpl).

Lemma maxDuration_value : maxDuration = 9223372036854775807.
Proof. reflexivity. Qed.

Lemma minDuration_value : minDuration = -9223372036854775808.
Proof. reflexivity. Qed.

Lemma time_Sub_exact (t u : Time) :
  minDuration <= t - u <= maxDuration -> time_Sub t u = t - u.
Proof. unfold time_Sub. lia. Qed.

Lemma time_Sub_ge (t u : Time) (d : Duration) :
  d <= maxDuration -> t - u >= d -> time_Sub t u >= d.
Proof. unfold time_Sub. lia. Qed.

(** ** The grace period *)

Lemma gracePeriod_returns (args : Args) (w : World) :
  fst (runMain_gracePeriod args w) = Ok tt /\
  clock (snd (runMain_gracePeriod args w))
  = clock w + (if SkipWait args then 0 else 20 * Minute).
Proof.
  unfold runMain_gracePeriod. destruct (SkipWait args); cbn; split;
    try reflexivity; lia.
Qed.

(** ** The wait for the window *)

Lemma awaitWindow_not_due (env : Env) (w : World) :
  window_due env (clock w) = false -> runMain_awaitWindow env w = (Ok tt, w).
Proof.
  unfold window_due. intros H. apply orb_false_iff in H as [Ha Hs].
  unfold_run. run_simpl. rewrite Ha. run_simpl. rewrite Hs. reflexivity.
Qed.

(** C2. Whenever the run reaches the window check with the schedule
    reporting [Active() == false] and [NextStart()] at least two minutes
    after the current time, the wait for the window does nothing at all
    (no event, no sleep, the clock stands still) and the run goes on
    with the power-off steps from that very state. *)
Theorem window_skip (env : Env) (args : Args) (w w1 : World) :
  (runMain_connecting env args ;; runMain_gracePeriod args) w = (Ok tt, w1) ->
  OnWindow_Active env (clock w1) = false ->
  OnWindow_NextStart env (clock w1) - clock w1 >= 2 * Minute ->
  runMain_awaitWindow env w1 = (Ok tt, w1) /\
  runMain env args w = runMain_shutdown env w1.
Proof.
  intros Hrun Hact Hstart.
  assert (Hskip : runMain_awaitWindow env w1 = (Ok tt, w1)).
  { apply awaitWindow_not_due. unfold window_due. rewrite Hact. cbn.
    apply Z.ltb_ge. apply Z.ge_le.
    replace (Minute * 2) with (2 * Minute) by reflexivity.
    apply time_Sub_ge; [rewrite maxDuration_value; cbv; discriminate | exact Hstart]. }
  split; [exact Hskip|].
  unfold runMain, bind in *.
  destruct (runMain_connecting env args w) as [[[]|e] w0]; [|discriminate].
  destruct (runMain_gracePeriod args w0) as [[[]|e] w2]; [|discriminate].
  inversion Hrun; subst w2. rewrite Hskip. reflexivity.
Qed.

Lemma window_skip_witness :
  runMain_awaitWindow env_idle
    (snd ((runMain_connecting env_idle args_default ;;
           runMain_gracePeriod args_default) (init_World t_boot [])))
  = (Ok tt,
     snd ((runMain_connecting env_idle args_default ;;
           runMain_gracePeriod args_default) (init_World t_boot []))) /\
  runMain env_idle args_default (init_World t_boot [])
  = runMain_shutdown env_idle
      (snd ((runMain_connecting env_idle args_default ;;
             runMain_gracePeriod args_default) (init_World t_boot []))).
Proof.
  apply (window_skip env_idle args_default (init_World t_boot []));
    [reflexivity | reflexivity | vm_compute; discriminate].
Defined.

(** C1, amended. While the window is open or imminent, the wait is one
    single sleep whose length, [NextEnd()] minus the current time, is
    computed once on entry: the run logs it, sleeps, logs the end of the
    wait and reads the camera state.  The shared deadlines are never
    consulted: whatever they hold and whatever extensions arrive, the
    same events happen and the run wakes at the same instant. *)
Theorem awaitWindow_single_sleep (env : Env) (w : World) :
  window_due env (clock w) = true ->
  exists w',
    runMain_awaitWindow env w = (Ok tt, w') /\
    trace w' = trace w ++
      [ELog (LSleepingFor (time_Sub (OnWindow_NextEnd env (clock w)) (clock w)));
       ESleep (time_Sub (OnWindow_NextEnd env (clock w)) (clock w));
       ELog LFinishedWaiting;
       EReadCameraState (ReadCameraState_res env (cameraReads w));
       ELog (LCameraState (attiny_CameraState w'))] /\
    clock w'
    = clock w + Z.max 0 (time_Sub (OnWindow_NextEnd env (clock w)) (clock w)) /\
    forall (g : Globals) (reqs : list ExtendReq),
      fst (runMain_awaitWindow env (with_deadlines g reqs w)) = Ok tt /\
      clock (snd (runMain_awaitWindow env (with_deadlines g reqs w))) = clock w' /\
      trace (snd (runMain_awaitWindow env (with_deadlines g reqs w))) = trace w'.
Proof.
  unfold window_due. intros Hdue.
  exists (snd (runMain_awaitWindow env w)).
  assert (Hcond :
    (if OnWindow_Active env (clock w) then true
     else time_Sub (OnWindow_NextStart env (clock w)) (clock w) <? Minute * 2)
    = true).
  { destruct (OnWindow_Active env (clock w)); [reflexivity | exact Hdue]. }
  unfold_run. run_simpl.
  destruct (OnWindow_Active env (clock w)); run_simpl;
    try rewrite Hcond; run_simpl.
  all: destruct (time_Sub (OnWindow_NextEnd env (clock w)) (clock w) <=? 0) eqn:Hd;
    run_simpl;
    destruct (ReadCameraState_res env (cameraReads w)); run_simpl.
  all: rewrite <- ?app_assoc; cbn [app].
  all: try apply Z.leb_le in Hd; try apply Z.leb_gt in Hd.
  all: repeat split; try reflexivity; try lia.
Qed.

Lemma awaitWindow_single_sleep_witness :
  window_due env_open (clock (init_World t_boot [late_extension])) = true /\
  exists w',
    runMain_awaitWindow env_open (init_World t_boot [late_extension]) = (Ok tt, w') /\
    clock w' = t_boot + 2 * Hour /\
    stayOnUntil (globals w') = t_boot + 3 * Hour.
Proof.
  split; [reflexivity|].
  destruct (awaitWindow_single_sleep env_open (init_World t_boot [late_extension]) eq_refl)
    as (w' & Hrun & _ & Hclock & _).
  exists w'. split; [exact Hrun|]. split; [rewrite Hclock; reflexivity|].
  replace w' with (snd (runMain_awaitWindow env_open (init_World t_boot [late_extension])))
    by (rewrite Hrun; reflexivity).
  reflexivity.
Defined.

(** ** Reading traces piecewise *)

Lemma abort_error_app (b : bool) (l1 l2 : list Event) :
  abort_error b (l1 ++ l2) =
  match abort_error b l1 with
  | Some e => Some e
  | None => abort_error (b || existsb is_read l1) l2
  end.
Proof.
  revert b. induction l1 as [|ev l1 IH]; intros b; cbn [app].
  - cbn. now rewrite orb_false_r.
  - destruct ev; cbn [abort_error existsb is_read];
      try (destruct (checked_failure _); [reflexivity|]; rewrite IH;
           cbn [orb]; reflexivity).
    destruct b, r; try reflexivity; rewrite IH; cbn [orb];
      rewrite ?orb_true_r; reflexivity.
Qed.

Lemma log_lines_app (l1 l2 : list Event) :
  log_lines (l1 ++ l2) = log_lines l1 ++ log_lines l2.
Proof. unfold log_lines. apply flat_map_app. Qed.

Lemma no_sleep_app (l1 l2 : list Event) :
  no_sleep (l1 ++ l2) <-> no_sleep l1 /\ no_sleep l2.
Proof. unfold no_sleep. rewrite forallb_app. apply andb_true_iff. Qed.

(** Cutting an explicit list at its first occurrence of [x]. *)
Ltac split_at x l k :=
  lazymatch l with
  | x :: ?tl => k (@nil Event) tl
  | ?h :: ?tl => split_at x tl ltac:(fun p s => k (h :: p) s)
  end.

Ltac close_trace :=
  rewrite <- ?app_assoc; cbn [app]; reflexivity.

(** ** Connecting *)

Lemma connecting_summary (env : Env) (args : Args) (w : World) :
  exists evs,
    trace (snd (runMain_connecting env args w)) = trace w ++ evs /\
    clock (snd (runMain_connecting env args w)) = clock w /\
    res_error (fst (runMain_connecting env args w)) = abort_error false evs /\
    no_sleep evs /\
    existsb poweroff_failure evs = false /\
    (forall e, existsb (records_failure e) (log_lines evs) = false) /\
    (fst (runMain_connecting env args w) = Ok tt ->
     existsb is_read evs = true /\
     exists pre mid1 mid2 post,
       evs = pre ++ EClearAlarmFlag None :: mid1 ++
             ESetAlarmTime
               (AlarmTimeFromTime env (OnWindow_NextStart env (clock w))) None
             :: mid2 ++ ESetAlarmEnabled true None :: post).
Proof.
  run_cases.
  all: eexists; split; [close_trace|].
  all: split; [reflexivity|].
  all: split; [reflexivity|].
  all: split; [reflexivity|].
  all: split; [reflexivity|].
  all: split; [intros; reflexivity|].
  all: cbn [fst]; intros Hok; try discriminate Hok.
  all: split; [reflexivity|].
  all: lazymatch goal with
       | |- exists pre mid1 mid2 post, ?l = _ =>
           split_at (EClearAlarmFlag None) l ltac:(fun pre r1 =>
           split_at (ESetAlarmTime
                       (AlarmTimeFromTime env (OnWindow_NextStart env (clock w)))
                       None) r1 ltac:(fun mid1 r2 =>
           split_at (ESetAlarmEnabled true None) r2 ltac:(fun mid2 post =>
             exists pre, mid1, mid2, post; reflexivity)))
       end.
Qed.

(** ** The later steps *)

Lemma audited_seq (m1 m2 : M unit) :
  audited m1 -> audited m2 -> audited (m1 ;; m2).
Proof.
  intros H1 H2 w. unfold bind.
  destruct (H1 w) as (evs1 & Ht1 & Hr1 & Hl1).
  destruct (m1 w) as [[[]|e] w1]; cbn [fst snd res_error] in *.
  - destruct (H2 w1) as (evs2 & Ht2 & Hr2 & Hl2).
    exists (evs1 ++ evs2). split; [|split].
    + rewrite Ht2, Ht1. now rewrite app_assoc.
    + rewrite abort_error_app, <- Hr1. exact Hr2.
    + intros e'. rewrite log_lines_app, existsb_app, Hl1, Hl2. reflexivity.
  - exists evs1. auto.
Qed.

Lemma gracePeriod_audited (args : Args) : audited (runMain_gracePeriod args).
Proof.
  intros w. unfold runMain_gracePeriod. destruct (SkipWait args); run_cases.
  all: eexists; split; [close_trace|]; split; [reflexivity|]; intros; reflexivity.
Qed.

Lemma awaitWindow_audited (env : Env) : audited (runMain_awaitWindow env).
Proof.
  intros w. run_cases.
  all: first [ eexists; split; [close_trace|]
             | exists []; split; [symmetry; apply app_nil_r|] ].
  all: split; [reflexivity|]; intros; reflexivity.
Qed.

Lemma shutdown_audited (env : Env) : audited (runMain_shutdown env).
Proof.
  intros w. run_cases.
  all: eexists; split; [close_trace|]; split; [reflexivity|]; intros; reflexivity.
Qed.

Lemma later_steps_audited (env : Env) (args : Args) :
  audited (runMain_gracePeriod args ;; runMain_awaitWindow env ;; runMain_shutdown env).
Proof.
  apply audited_seq; [apply gracePeriod_audited|].
  apply audited_seq; [apply awaitWindow_audited | apply shutdown_audited].
Qed.

(** ** The whole run *)

Lemma runMain_summary (env : Env) (args : Args) (w : World) :
  exists evs,
    trace (snd (runMain env args w)) = trace w ++ evs /\
    res_error (fst (runMain env args w)) = abort_error false evs /\
    (forall e, existsb (records_failure e) (log_lines evs) = false) /\
    (fst (runMain env args w) = Ok tt ->
     exists pre mid1 mid2 post,
       evs = pre ++ EClearAlarmFlag None :: mid1 ++
             ESetAlarmTime
               (AlarmTimeFromTime env (OnWindow_NextStart env (clock w))) None
             :: mid2 ++ ESetAlarmEnabled true None :: post /\
       no_sleep pre /\ no_sleep mid1 /\ no_sleep mid2).
Proof.
  destruct (connecting_summary env args w)
    as (evs1 & Ht1 & _ & Hr1 & Hns & _ & Hl1 & Hok1).
  unfold runMain, bind.
  destruct (runMain_connecting env args w) as [[[]|e] w1];
    cbn [fst snd res_error] in *.
  - destruct (later_steps_audited env args w1) as (evs2 & Ht2 & Hr2 & Hl2).
    unfold bind in Ht2, Hr2.
    destruct (Hok1 eq_refl) as (Hread & pre & mid1 & mid2 & post & Hevs).
    exists (evs1 ++ evs2). split; [|split; [|split]].
    + rewrite Ht2, Ht1. now rewrite app_assoc.
    + rewrite abort_error_app, <- Hr1, Hread. exact Hr2.
    + intros e'. rewrite log_lines_app, existsb_app, Hl1, Hl2. reflexivity.
    + intros _. exists pre, mid1, mid2, (post ++ evs2).
      rewrite Hevs in Hns.
      apply no_sleep_app in Hns as [Hpre Hns].
      change (EClearAlarmFlag None :: mid1 ++ ?r)
        with ([EClearAlarmFlag None] ++ mid1 ++ r) in Hns.
      apply no_sleep_app in Hns as [_ Hns].
      apply no_sleep_app in Hns as [Hmid1 Hns].
      change (?a :: mid2 ++ ?r) with ([a] ++ mid2 ++ r) in Hns.
      apply no_sleep_app in Hns as [_ Hns].
      apply no_sleep_app in Hns as [Hmid2 _].
      split; [|auto].
      rewrite Hevs. rewrite <- !app_assoc. cbn [app].
      rewrite <- !app_assoc. cbn [app]. rewrite <- !app_assoc. reflexivity.
  - exists evs1. split; [exact Ht1|]. split; [exact Hr1|]. split; [exact Hl1|].
    discriminate.
Qed.

(** C5. In every successful run [ClearAlarmFlag()] succeeds, then
    [SetAlarmTime] programs the alarm for the schedule's next start,
    then [SetAlarmEnabled(true)] enables it, and no sleep (neither the
    grace period nor the wait for the window) comes before the alarm is
    enabled: every sleep of the run lies in [post]. *)
Theorem alarm_armed_before_any_wait (env : Env) (args : Args) (w w' : World) :
  runMain env args w = (Ok tt, w') ->
  exists pre mid1 mid2 post,
    trace w' = trace w ++ pre ++ EClearAlarmFlag None :: mid1 ++
               ESetAlarmTime
                 (AlarmTimeFromTime env (OnWindow_NextStart env (clock w))) None
               :: mid2 ++ ESetAlarmEnabled true None :: post /\
    no_sleep pre /\ no_sleep mid1 /\ no_sleep mid2.
Proof.
  intros Hrun.
  destruct (runMain_summary env args w) as (evs & Ht & _ & _ & Hok).
  rewrite Hrun in Ht, Hok. cbn [fst snd] in Ht, Hok.
  destruct (Hok eq_refl) as (pre & mid1 & mid2 & post & Hevs & Hns).
  exists pre, mid1, mid2, post. split; [|exact Hns].
  rewrite Ht, Hevs. reflexivity.
Qed.

Lemma alarm_armed_before_any_wait_witness :
  sleeps (trace (snd (runMain env_open args_default (init_World t_boot []))))
  = [ESleep (20 * Minute); ESleep (100 * Minute)] /\
  exists pre mid1 mid2 post,
    trace (snd (runMain env_open args_default (init_World t_boot [])))
    = trace (init_World t_boot []) ++ pre ++ EClearAlarmFlag None :: mid1 ++
      ESetAlarmTime
        (AlarmTimeFromTime env_open
           (OnWindow_NextStart env_open (clock (init_World t_boot [])))) None
      :: mid2 ++ ESetAlarmEnabled true None :: post /\
    no_sleep pre /\ no_sleep mid1 /\ no_sleep mid2.
Proof.
  split; [vm_compute; reflexivity|].
  apply (alarm_armed_before_any_wait env_open args_default (init_World t_boot [])).
  vm_compute. reflexivity.
Defined.

Lemma res_error_Err (r : Result unit) (e : error) :
  res_error r = Some e -> r = Err e.
Proof. destruct r; cbn; congruence. Qed.

Lemma res_error_Ok (r : Result unit) : res_error r = None -> r = Ok tt.
Proof. destruct r as [[]|]; cbn; congruence. Qed.

(** C9, amended. Every call that runMain tests (ParseConfig, the
    connection, the RTC initialisation, the first status read,
    ClearAlarmFlag, GetTime, SetAlarmTime, SetAlarmEnabled, PoweringOff)
    propagates its failure: runMain returns the error of the first such
    call that fails, and main logs it and exits with status 1.  The
    status reads made after the first one are diagnostic: their failure
    alone does not abort the run, and no log line written by runMain
    prints an error. *)
Theorem checked_errors_propagate (env : Env) (args : Args) (w : World) :
  exists evs,
    trace (snd (runMain env args w)) = trace w ++ evs /\
    (forall e, abort_error false evs = Some e ->
       fst (runMain env args w) = Err e /\
       trace (main env args w) = trace w ++ evs ++ [ELog (LFatal e); EExit 1]) /\
    (abort_error false evs = None -> existsb poweroff_failure evs = false ->
       fst (runMain env args w) = Ok tt /\
       trace (main env args w) = trace w ++ evs ++ [EExit 0]) /\
    (forall e, existsb (records_failure e) (log_lines evs) = false).
Proof.
  destruct (runMain_summary env args w) as (evs & Ht & Hr & Hl & _).
  exists evs. split; [exact Ht|]. split; [|split; [|exact Hl]].
  - intros e He. rewrite He in Hr. apply res_error_Err in Hr.
    split; [exact Hr|]. unfold main.
    destruct (runMain env args w) as [r w1]. cbn [fst snd] in *. subst r.
    cbn. rewrite Ht. now rewrite <- !app_assoc.
  - intros He _. rewrite He in Hr. apply res_error_Ok in Hr.
    split; [exact Hr|]. unfold main.
    destruct (runMain env args w) as [r w1]. cbn [fst snd] in *. subst r.
    cbn. rewrite Ht. now rewrite <- !app_assoc.
Qed.

(** ** The shared deadlines are never consulted *)

Lemma same_view_refl (w : World) : same_view w w.
Proof. repeat split. Qed.

Lemma same_view_with_deadlines (g : Globals) (reqs : list ExtendReq) (w : World) :
  same_view (with_deadlines g reqs w) w.
Proof. repeat split. Qed.

Lemma blind_ret (A : Type) (a : A) : deadline_blind (ret a).
Proof. intros w1 w2 Hv. split; [reflexivity | exact Hv]. Qed.

Lemma blind_raise (A : Type) (e : error) : deadline_blind (@raise A e).
Proof. intros w1 w2 Hv. split; [reflexivity | exact Hv]. Qed.

Lemma blind_emit (ev : Event) : deadline_blind (emit ev).
Proof.
  intros w1 w2 (Hc & Hs & Hn & Ht). split; [reflexivity|].
  repeat split; cbn; congruence.
Qed.

Lemma blind_bind (A B : Type) (m : M A) (k : A -> M B) :
  deadline_blind m -> (forall a, deadline_blind (k a)) -> deadline_blind (bind m k).
Proof.
  intros Hm Hk w1 w2 Hv. unfold bind.
  destruct (Hm w1 w2 Hv) as [Hr Hs].
  destruct (m w1) as [[a1|e1] w1'], (m w2) as [[a2|e2] w2'];
    cbn [fst snd] in *; try discriminate.
  - injection Hr as ->. now apply Hk.
  - injection Hr as ->. split; [reflexivity | exact Hs].
Qed.

Lemma blind_time_Now : deadline_blind time_Now.
Proof.
  intros w1 w2 Hv. split; [|exact Hv].
  destruct Hv as (Hc & _). cbn. now rewrite Hc.
Qed.

Lemma blind_advance_arrive (d : Duration) :
  deadline_blind (fun w => (Ok tt, arrive (advance d w))).
Proof.
  intros w1 w2 (Hc & Hs & Hn & Ht). split; [reflexivity|].
  repeat split; cbn; congruence.
Qed.

Lemma blind_ReadCameraState (env : Env) : deadline_blind (ReadCameraState env).
Proof.
  intros w1 w2 (Hc & Hs & Hn & Ht). unfold ReadCameraState. rewrite Hn.
  destruct (ReadCameraState_res env (cameraReads w2)); cbn;
    (split; [reflexivity|]); repeat split; cbn; congruence.
Qed.

Lemma blind_log_CameraState : deadline_blind log_CameraState.
Proof.
  intros w1 w2 (Hc & Hs & Hn & Ht). unfold log_CameraState, log, emit.
  split; [reflexivity|]. repeat split; cbn; congruence.
Qed.

Ltac blind :=
  repeat first
    [ apply blind_ret | apply blind_raise | apply blind_emit
    | apply blind_time_Now | apply blind_advance_arrive
    | apply blind_ReadCameraState | apply blind_log_CameraState
    | apply blind_bind; [|intros ?]
    | match goal with
      | |- deadline_blind (match ?x with _ => _ end) => destruct x
      end ].

Lemma runMain_deadline_blind (env : Env) (args : Args) :
  deadline_blind (runMain env args).
Proof.
  unfold runMain, runMain_connecting, runMain_gracePeriod, runMain_awaitWindow,
    runMain_shutdown, shutdown, check, discard, log,
    ParseConfig, connectToATtinyWithRetries, InitPCF9564,
    ClearAlarmFlag, GetTime, SetAlarmTime, SetAlarmEnabled, PoweringOff,
    poweroff_CombinedOutput, Active, NextStart, NextEnd, time_Until, time_Sleep.
  blind.
Qed.

(** The run is the same whatever the deadlines hold and whatever
    extension requests are under way. *)
Corollary runMain_ignores_deadlines
  (env : Env) (args : Args) (g : Globals) (reqs : list ExtendReq) (w : World) :
  fst (runMain env args (with_deadlines g reqs w)) = fst (runMain env args w) /\
  clock (snd (runMain env args (with_deadlines g reqs w)))
  = clock (snd (runMain env args w)) /\
  trace (snd (runMain env args (with_deadlines g reqs w)))
  = trace (snd (runMain env args w)).
Proof.
  destruct (runMain_deadline_blind env args _ _ (same_view_with_deadlines g reqs w))
    as (Hr & Hc & _ & _ & Ht).
  auto.
Qed.

(** * Further properties of the code *)

(** ** The codec outside the claims *)

(** X1. For [n] in [0, 99], [toBCD n] holds the units digit of [n] in
    its low nibble and the tens digit in its high nibble, so it is a
    valid BCD byte. *)
Theorem toBCD_digits (n : Z) :
  0 <= n <= 99 ->
  lo_nibble (toBCD n) = n mod 10 /\
  hi_nibble (toBCD n) = n / 10 /\
  valid_bcd (toBCD n).
Proof.
  intros Hn. rewrite toBCD_small by exact Hn.
  assert (Hd : 0 <= n mod 10 < 10) by (apply Z.mod_pos_bound; lia).
  assert (Ht : 0 <= n / 10 < 10).
  { split; [apply Z.div_pos; lia | apply Z.div_lt_upper_bound; lia]. }
  unfold valid_bcd, is_byte. rewrite lo_nibble_mod, hi_nibble_div.
  destruct (digits_split (n mod 10) (n / 10)) as [-> ->]; lia.
Qed.

Lemma toBCD_digits_witness :
  0 <= 47 <= 99 /\
  lo_nibble (toBCD 47) = 47 mod 10 /\
  hi_nibble (toBCD 47) = 47 / 10 /\
  valid_bcd (toBCD 47).
Proof. split; [lia | apply (toBCD_digits 47); lia]. Defined.

Lemma toBCD_low_bits (n : Z) : toBCD n = toBCD (n mod 256).
Proof. unfold toBCD, byte_of_int. now rewrite Z.mod_mod. Qed.

(** X2. [toBCD] looks at the low eight bits of its argument only, the
    sign included, and always returns a byte. *)
Theorem toBCD_truncates (n k : Z) :
  toBCD (n + 256 * k) = toBCD n /\ is_byte (toBCD n).
Proof.
  split.
  - rewrite (toBCD_low_bits (n + 256 * k)), (toBCD_low_bits n).
    f_equal. rewrite (Z.mul_comm 256 k). apply Z.mod_add. lia.
  - unfold is_byte, toBCD, byte_add. apply Z.mod_pos_bound. lia.
Qed.

Lemma roundtrip_on_bytes (b : nat) :
  (b < 256)%nat -> fromBCD (toBCD (Z.of_nat b)) = Z.of_nat b mod 160.
Proof.
  intros Hb.
  assert (Hall : forallb (fun k => fromBCD (toBCD (Z.of_nat k)) =? Z.of_nat k mod 160)
                         (seq 0 256) = true) by (vm_compute; reflexivity).
  rewrite forallb_forall in Hall. apply Z.eqb_eq. apply Hall.
  apply in_seq. lia.
Qed.

(** X3. Decoding an encoded integer: for every [n], whatever its size
    or sign, [fromBCD (toBCD n)] is the low byte of [n] reduced modulo
    160. *)
Theorem fromBCD_toBCD_any (n : Z) :
  fromBCD (toBCD n) = (n mod 256) mod 160.
Proof.
  rewrite toBCD_low_bits.
  assert (Hb : 0 <= n mod 256 < 256) by (apply Z.mod_pos_bound; lia).
  rewrite <- (Z2Nat.id (n mod 256)) by lia.
  apply roundtrip_on_bytes. lia.
Qed.

(** X4. The round trip [fromBCD (toBCD n) = n] holds exactly for the
    integers from 0 to 159: the encoder keeps a tens digit up to 15 in
    the high nibble and wraps from 160 on. *)
Theorem fromBCD_toBCD_iff (n : Z) :
  fromBCD (toBCD n) = n <-> 0 <= n <= 159.
Proof.
  rewrite fromBCD_toBCD_any.
  assert (Hb : 0 <= n mod 256 < 256) by (apply Z.mod_pos_bound; lia).
  assert (Hm : 0 <= (n mod 256) mod 160 < 160) by (apply Z.mod_pos_bound; lia).
  split.
  - intros H. lia.
  - intros H. rewrite (Z.mod_small n 256) by lia. apply Z.mod_small. lia.
Qed.

(** ** The main sequence outside the claims *)

Lemma guarded_by_true (m q : Event -> bool) (evs : list Event) :
  guarded_by m q true evs = true.
Proof.
  induction evs as [|ev evs IH]; cbn; [reflexivity|].
  rewrite orb_true_r. exact IH.
Qed.

Lemma guarded_by_app (m q : Event -> bool) (b : bool) (l1 l2 : list Event) :
  guarded_by m q b (l1 ++ l2)
  = guarded_by m q b l1 && guarded_by m q (b || existsb m l1) l2.
Proof.
  revert b. induction l1 as [|ev l1 IH]; intros b; cbn.
  - now rewrite orb_false_r.
  - rewrite IH, orb_assoc, andb_assoc. reflexivity.
Qed.

Lemma guarded_by_before (m q : Event -> bool) (b : bool) (l1 l2 : list Event)
  (ev : Event) :
  guarded_by m q b (l1 ++ ev :: l2) = true -> q ev = true ->
  b || existsb m l1 = true.
Proof.
  rewrite guarded_by_app. cbn. intros H Hq. rewrite Hq in H. cbn in H.
  apply andb_true_iff in H as [_ H]. apply andb_true_iff in H as [H _].
  exact H.
Qed.


Lemma runMain_split (env : Env) (args : Args) (w : World) :
  runMain env args w
  = match runMain_connecting env args w with
    | (Err e, w1) => (Err e, w1)
    | (Ok _, w1) =>
        runMain_shutdown env
          (snd (runMain_awaitWindow env (snd (runMain_gracePeriod args w1))))
    end.
Proof.
  unfold runMain, bind.
  destruct (runMain_connecting env args w) as [[[]|e] w1]; [|reflexivity].
  destruct (gracePeriod_returns args w1) as [Hg _].
  destruct (runMain_gracePeriod args w1) as [rg w2]. cbn [fst snd] in *. subst rg.
  assert (Ha : fst (runMain_awaitWindow env w2) = Ok tt).
  { run_cases; reflexivity. }
  destruct (runMain_awaitWindow env w2) as [ra w3]. cbn [fst snd] in *.
  subst ra. reflexivity.
Qed.

Lemma connecting_facts (env : Env) (args : Args) (w : World) :
  exists evs,
    trace (snd (runMain_connecting env args w)) = trace w ++ evs /\
    clock (snd (runMain_connecting env args w)) = clock w /\
    filter is_power evs = [] /\
    sleeps evs = [] /\
    guarded_by is_spawn after_connect false evs = true /\
    guarded_by is_connected after_connect false evs = true /\
    match fst (runMain_connecting env args w) with
    | Ok _ => existsb is_spawn evs = true /\ existsb is_connected evs = true
    | Err e =>
        evs = removelast evs ++ [last_event evs] /\
        (checked_failure (last_event evs) = Some e \/
         last_event evs = EReadCameraState (Err e) /\
         existsb is_read (removelast evs) = false)
    end.
Proof.
  run_cases.
  all: eexists; split; [close_trace|].
  all: do 5 (split; [reflexivity|]).
  all: split; [reflexivity|].
  all: first [ reflexivity | left; reflexivity | right; split; reflexivity ].
Qed.

Lemma gracePeriod_facts (args : Args) (w : World) :
  trace (snd (runMain_gracePeriod args w))
  = trace w ++ (if SkipWait args then [ELog LNotWaiting]
                else [ELog LWaiting20; ESleep (20 * Minute)]) /\
  clock (snd (runMain_gracePeriod args w)) = clock w + grace_of args.
Proof.
  unfold runMain_gracePeriod, grace_of. destruct (SkipWait args); cbn; split;
    try reflexivity; try lia.
  now rewrite <- app_assoc.
Qed.

Lemma awaitWindow_facts (env : Env) (w : World) :
  exists evs,
    trace (snd (runMain_awaitWindow env w)) = trace w ++ evs /\
    filter is_power evs = [] /\
    sleeps evs = (if window_due env (clock w)
                  then [ESleep (window_delay env (clock w))] else []) /\
    clock (snd (runMain_awaitWindow env w))
    = clock w + (if window_due env (clock w)
                 then Z.max 0 (window_delay env (clock w)) else 0).
Proof.
  unfold window_due, window_delay. run_cases.
  all: first [ eexists; split; [close_trace|]
             | exists []; split; [symmetry; apply app_nil_r|] ].
  all: split; [reflexivity|]; split; [reflexivity|].
  all: try match goal with H : (_ <=? 0) = _ |- _ =>
         first [apply Z.leb_le in H | apply Z.leb_gt in H] end.
  all: cbn [orb]; lia.
Qed.

Lemma shutdown_facts (env : Env) (w : World) :
  exists evs,
    trace (snd (runMain_shutdown env w)) = trace w ++ evs /\
    clock (snd (runMain_shutdown env w)) = clock w /\
    sleeps evs = [] /\
    match fst (runMain_shutdown env w) with
    | Ok _ =>
        filter is_power evs
        = [EPoweringOff None;
           EPoweroff (fst (poweroff_res env)) (snd (poweroff_res env))] /\
        last_event evs
        = EPoweroff (fst (poweroff_res env)) (snd (poweroff_res env))
    | Err e =>
        filter is_power evs = [EPoweringOff (Some e)] /\
        evs = removelast evs ++ [last_event evs] /\
        checked_failure (last_event evs) = Some e
    end.
Proof.
  run_cases.
  all: eexists; split; [close_trace|].
  all: repeat (split; [reflexivity|]); reflexivity.
Qed.

(** The events of a run: those of connecting, then those of the later
    steps, which there are none of when connecting fails. *)
Lemma runMain_events (env : Env) (args : Args) (w : World) :
  exists evs1 rest,
    trace (snd (runMain_connecting env args w)) = trace w ++ evs1 /\
    trace (snd (runMain env args w)) = trace w ++ evs1 ++ rest /\
    (forall e, fst (runMain_connecting env args w) = Err e ->
       rest = [] /\ fst (runMain env args w) = Err e).
Proof.
  destruct (connecting_facts env args w) as (evs1 & Ht1 & _).
  rewrite runMain_split.
  destruct (runMain_connecting env args w) as [[[]|e] w1]; cbn [fst snd] in *.
  - destruct (gracePeriod_facts args w1) as [Hg _].
    destruct (awaitWindow_facts env (snd (runMain_gracePeriod args w1)))
      as (evsA & Ha & _).
    destruct (shutdown_facts env
                (snd (runMain_awaitWindow env (snd (runMain_gracePeriod args w1)))))
      as (evsS & Hs & _).
    eexists evs1, _. split; [exact Ht1|]. split; [|discriminate].
    rewrite Hs, Ha, Hg, Ht1. rewrite <- !app_assoc. reflexivity.
  - exists evs1, []. split; [exact Ht1|]. split.
    + now rewrite app_nil_r.
    + intros e' He. injection He as ->. auto.
Qed.



Lemma last_event_app (l1 l2 : list Event) :
  l2 <> [] -> last_event (l1 ++ l2) = last_event l2.
Proof.
  unfold last_event. intros H. induction l1 as [|x l1 IH]; [reflexivity|].
  cbn [app]. rewrite <- IH. cbn.
  destruct (l1 ++ l2) eqn:E; [|reflexivity].
  apply app_eq_nil in E as [_ E]. contradiction.
Qed.

Lemma poweroff_among_power (l : list Event) :
  filter is_poweroff l = filter is_poweroff (filter is_power l).
Proof.
  induction l as [|x l IH]; [reflexivity|].
  destruct x; cbn; try exact IH. now rewrite IH.
Qed.

(** X6. /sbin/poweroff is invoked exactly when runMain returns nil.  In
    a successful run [PoweringOff()] is commanded once and succeeds,
    then /sbin/poweroff is invoked once, as the last thing runMain does;
    in a run that returns an error /sbin/poweroff is never invoked. *)
Theorem poweroff_iff_success (env : Env) (args : Args) (w : World) :
  exists evs,
    trace (snd (runMain env args w)) = trace w ++ evs /\
    match fst (runMain env args w) with
    | Ok _ =>
        filter is_power evs
        = [EPoweringOff None;
           EPoweroff (fst (poweroff_res env)) (snd (poweroff_res env))] /\
        last_event evs
        = EPoweroff (fst (poweroff_res env)) (snd (poweroff_res env))
    | Err _ => filter is_poweroff evs = []
    end.
Proof.
  destruct (connecting_facts env args w) as (evs1 & Ht1 & _ & Hquiet & _).
  rewrite runMain_split.
  destruct (runMain_connecting env args w) as [[[]|e] w1]; cbn [fst snd] in *.
  - destruct (gracePeriod_facts args w1) as [Hg _].
    destruct (awaitWindow_facts env (snd (runMain_gracePeriod args w1)))
      as (evsA & Ha & HpA & _).
    destruct (shutdown_facts env
                (snd (runMain_awaitWindow env (snd (runMain_gracePeriod args w1)))))
      as (evsS & Hs & _ & _ & Hres).
    set (evsG := if SkipWait args then [ELog LNotWaiting]
                 else [ELog LWaiting20; ESleep (20 * Minute)]) in Hg.
    assert (HpG : filter is_power evsG = []).
    { subst evsG. destruct (SkipWait args); reflexivity. }
    exists (evs1 ++ evsG ++ evsA ++ evsS). split.
    { rewrite Hs, Ha, Hg, Ht1. rewrite <- !app_assoc. reflexivity. }
    destruct (fst (runMain_shutdown env _)) as [[]|e].
    + destruct Hres as [Hp Hlast]. split.
      * rewrite !filter_app, Hquiet, HpG, HpA, Hp. reflexivity.
      * rewrite !app_assoc, last_event_app; [exact Hlast|].
        intros ->. discriminate Hp.
    + destruct Hres as (Hp & _ & _).
      rewrite poweroff_among_power, !filter_app, Hquiet, HpG, HpA, Hp.
      reflexivity.
  - exists evs1. split; [exact Ht1|].
    rewrite poweroff_among_power, Hquiet. reflexivity.
Qed.



Lemma spawn_seen (l : list Event) :
  existsb is_spawn l = true -> In ESpawnWatchdog l.
Proof.
  intros H. apply existsb_exists in H as (x & Hin & Hx).
  destruct x; try discriminate. exact Hin.
Qed.

Lemma connect_seen (l : list Event) :
  existsb is_connected l = true -> In (EConnect 0 None) l.
Proof.
  intros H. apply existsb_exists in H as (x & Hin & Hx).
  destruct x as [| | |r [e|]| | | | | | | | | | |]; try discriminate.
  cbn in Hx. apply Z.eqb_eq in Hx. now subst r.
Qed.

Lemma runMain_guarded (m : Event -> bool) (env : Env) (args : Args) (w : World)
  (evs1 rest : list Event) :
  trace (snd (runMain_connecting env args w)) = trace w ++ evs1 ->
  (forall e, fst (runMain_connecting env args w) = Err e -> rest = []) ->
  guarded_by m after_connect false evs1 = true ->
  (forall u, fst (runMain_connecting env args w) = Ok u -> existsb m evs1 = true) ->
  guarded_by m after_connect false (evs1 ++ rest) = true.
Proof.
  intros _ Herr Hg Hok. rewrite guarded_by_app, Hg. cbn [andb orb].
  destruct (fst (runMain_connecting env args w)) as [u|e].
  - rewrite (Hok u eq_refl). apply guarded_by_true.
  - rewrite (Herr e eq_refl). reflexivity.
Qed.

(** X8. The watchdog is kept alive from the start: in any run, every
    RTC call, status read, sleep and power-off action comes after
    [connectToATtinyWithRetries(0)] has succeeded and the watchdog
    goroutine has been started. *)
Theorem watchdog_started_first
  (env : Env) (args : Args) (w : World) (l1 l2 : list Event) (ev : Event) :
  trace (snd (runMain env args w)) = trace w ++ l1 ++ ev :: l2 ->
  after_connect ev = true ->
  In (EConnect 0 None) l1 /\ In ESpawnWatchdog l1.
Proof.
  intros Htr Hev.
  destruct (runMain_events env args w) as (evs1 & rest & Ht1 & Ht & Herr).
  destruct (connecting_facts env args w)
    as (evs1' & Ht1' & _ & _ & _ & Hgs & Hgc & Hres).
  rewrite Ht1 in Ht1'. apply app_inv_head in Ht1'. subst evs1'.
  rewrite Ht in Htr. apply app_inv_head in Htr.
  assert (Herr' : forall e, fst (runMain_connecting env args w) = Err e -> rest = []).
  { intros e He. now destruct (Herr e He). }
  split.
  - apply connect_seen.
    apply (guarded_by_before is_connected after_connect false l1 l2 ev); [|exact Hev].
    rewrite <- Htr. apply (runMain_guarded _ env args w); auto.
    intros u Hu. rewrite Hu in Hres. tauto.
  - apply spawn_seen.
    apply (guarded_by_before is_spawn after_connect false l1 l2 ev); [|exact Hev].
    rewrite <- Htr. apply (runMain_guarded _ env args w); auto.
    intros u Hu. rewrite Hu in Hres. tauto.
Qed.

Lemma watchdog_started_first_witness :
  In (EConnect 0 None)
     (firstn 8 (trace (snd (runMain env_idle args_skip_wait (init_World t_boot []))))) /\
  In ESpawnWatchdog
     (firstn 8 (trace (snd (runMain env_idle args_skip_wait (init_World t_boot []))))).
Proof.
  apply (watchdog_started_first env_idle args_skip_wait (init_World t_boot [])
           _ (skipn 9 (trace (snd (runMain env_idle args_skip_wait
                                     (init_World t_boot [])))))
           (EInitRTC None));
    vm_compute; reflexivity.
Defined.

(** X9. runMain stops at the call that fails: when it returns an error
    the last event of the run is the failed call itself, a tested call
    or the very first status read, and the error returned is that
    call's. *)
Theorem runMain_stops_at_failure
  (env : Env) (args : Args) (w : World) (e : error) :
  fst (runMain env args w) = Err e ->
  exists pre ev,
    trace (snd (runMain env args w)) = trace w ++ pre ++ [ev] /\
    (checked_failure ev = Some e \/
     ev = EReadCameraState (Err e) /\ existsb is_read pre = false).
Proof.
  destruct (connecting_facts env args w) as (evs1 & Ht1 & _ & _ & _ & _ & _ & Hres).
  rewrite runMain_split.
  destruct (runMain_connecting env args w) as [[[]|e1] w1]; cbn [fst snd] in *.
  - destruct (gracePeriod_facts args w1) as [Hg _].
    destruct (awaitWindow_facts env (snd (runMain_gracePeriod args w1)))
      as (evsA & Ha & _).
    destruct (shutdown_facts env
                (snd (runMain_awaitWindow env (snd (runMain_gracePeriod args w1)))))
      as (evsS & Hs & _ & _ & HresS).
    intros He. rewrite He in HresS. destruct HresS as (_ & Hlast & Hfail).
    set (evsG := if SkipWait args then [ELog LNotWaiting]
                 else [ELog LWaiting20; ESleep (20 * Minute)]) in Hg.
    exists (evs1 ++ evsG ++ evsA ++ removelast evsS), (last_event evsS).
    split; [|left; exact Hfail].
    rewrite Hs, Ha, Hg, Ht1, <- !app_assoc.
    do 4 apply f_equal. exact Hlast.
  - intros He. injection He as ->. destruct Hres as (Hlast & Hfail).
    exists (removelast evs1), (last_event evs1). split; [|exact Hfail].
    rewrite Ht1. apply f_equal. exact Hlast.
Qed.

Lemma runMain_stops_at_failure_witness :
  exists pre ev,
    trace (snd (runMain env_clear_fails args_skip_wait (init_World t_boot [])))
    = trace (init_World t_boot []) ++ pre ++ [ev] /\
    (checked_failure ev = Some "rtc: no ack" \/
     ev = EReadCameraState (Err "rtc: no ack") /\ existsb is_read pre = false).
Proof.
  apply (runMain_stops_at_failure env_clear_fails args_skip_wait (init_World t_boot [])).
  vm_compute. reflexivity.
Defined.

Lemma connecting_keeps_deadlines (env : Env) (args : Args) (w : World) :
  globals (snd (runMain_connecting env args w)) = globals w /\
  pending (snd (runMain_connecting env args w)) = pending w.
Proof. run_cases; split; reflexivity. Qed.

Lemma gracePeriod_keeps_deadlines (args : Args) (w : World) :
  pending w = [] ->
  globals (snd (runMain_gracePeriod args w)) = globals w /\
  pending (snd (runMain_gracePeriod args w)) = [].
Proof.
  intros Hp. unfold runMain_gracePeriod. destruct (SkipWait args); cbn;
    rewrite Hp; split; reflexivity.
Qed.

Lemma awaitWindow_keeps_deadlines (env : Env) (w : World) :
  pending w = [] ->
  globals (snd (runMain_awaitWindow env w)) = globals w /\
  pending (snd (runMain_awaitWindow env w)) = [].
Proof. intros Hp. run_cases; rewrite Hp; split; reflexivity. Qed.

Lemma shutdown_keeps_deadlines (env : Env) (w : World) :
  globals (snd (runMain_shutdown env w)) = globals w /\
  pending (snd (runMain_shutdown env w)) = pending w.
Proof. run_cases; split; reflexivity. Qed.

(** X10. runMain leaves the shared deadlines alone.  It never reads
    them: its result, its events and the instant it ends at are the same
    whatever [stayOnUntil] and [saltCommandWaitEnd] hold and whatever
    extensions are under way.  It never writes them: with no extension
    arriving, both deadlines are after the run what they were before. *)
Theorem runMain_leaves_deadlines_alone (env : Env) (args : Args) (w : World) :
  (forall (g : Globals) (reqs : list ExtendReq),
     fst (runMain env args (with_deadlines g reqs w)) = fst (runMain env args w) /\
     trace (snd (runMain env args (with_deadlines g reqs w)))
     = trace (snd (runMain env args w)) /\
     clock (snd (runMain env args (with_deadlines g reqs w)))
     = clock (snd (runMain env args w))) /\
  (pending w = [] -> globals (snd (runMain env args w)) = globals w).
Proof.
  split.
  - intros g reqs.
    destruct (runMain_deadline_blind env args _ _ (same_view_with_deadlines g reqs w))
      as (Hr & Hc & _ & _ & Ht).
    auto.
  - intros Hp. rewrite runMain_split.
    destruct (connecting_keeps_deadlines env args w) as [Hg1 Hp1].
    destruct (runMain_connecting env args w) as [[[]|e] w1]; cbn [fst snd] in *;
      [|exact Hg1].
    rewrite Hp in Hp1.
    destruct (gracePeriod_keeps_deadlines args w1 Hp1) as [Hg2 Hp2].
    destruct (awaitWindow_keeps_deadlines env _ Hp2) as [Hg3 Hp3].
    destruct (shutdown_keeps_deadlines env
                (snd (runMain_awaitWindow env (snd (runMain_gracePeriod args w1)))))
      as [Hg4 _].
    congruence.
Qed.
